(** * PyVLM: the [Panel] class of [pyvlm/panel.py]

    A shallow embedding of the panel aggregate of a vortex lattice method
    solver.  Coordinates are IEEE 754 binary64 numbers, the element type of
    the numpy arrays the class receives; they are modelled by Rocq's
    primitive floats, whose operations are the same binary64 operations.
    Exceptions are values, methods are state transformers over the
    attributes of [self]. *)

From Stdlib Require Import ZArith List String Bool.
From Stdlib Require Import Floats.
From Stdlib Require Import Lia.
Import ListNotations.

(** ** Numpy values *)

(** A two-element float64 array: [P[0]] is [px P], [P[1]] is [py P]. *)
Record point : Type := Point { px : float; py : float }.

(** [a - b] on arrays is elementwise. *)
Definition np_sub (a b : point) : point :=
  {| px := px a - px b; py := py a - py b |}.

(** [np.cross] of two 2D vectors is the scalar [a0*b1 - a1*b0]. *)
Definition np_cross (a b : point) : float :=
  px a * py b - py a * px b.

(** Python's [!=] on floats is the negation of IEEE equality. *)
Definition ne (a b : float) : bool := negb (a =? b)%float.

(** ** Exceptions and outcomes *)

Inductive exn : Type :=
| ValueError (msg : string)
| IndexError
| OtherError (cls : string).

Inductive outcome (A : Type) : Type :=
| Returns (a : A)
| Raises (e : exn).

Arguments Returns {A} a.
Arguments Raises {A} e.

Definition msg_not_parallel : string :=
  "Panel incorrectly defined, P1P2 and P3P4 not parallel".

Definition msg_unequal_span : string :=
  "Panel incorrectly defined, |P1P4| =/ |P2P3|".

(** The two errors the class raises itself, both a [ValueError]. *)
Definition MalformedPanel (e : exn) : Prop :=
  e = ValueError msg_not_parallel \/ e = ValueError msg_unequal_span.

(** ** The object and its methods *)

Record Panel : Type := mkPanel { P1 : point; P2 : point; P3 : point; P4 : point }.

(** A method body: it reads and may write the attributes of [self], and
    either returns a value or raises. *)
Definition method (A : Type) : Type := Panel -> outcome A * Panel.

Definition ret {A} (a : A) : method A := fun self => (Returns a, self).

Definition raise {A} (e : exn) : method A := fun self => (Raises e, self).

Definition bind {A B} (m : method A) (f : A -> method B) : method B :=
  fun self =>
    match m self with
    | (Returns a, self') => f a self'
    | (Raises e, self') => (Raises e, self')
    end.

(** [self.f] *)
Definition attr {A} (f : Panel -> A) : method A := fun self => (Returns (f self), self).

(** A call of a function that is given values and has no access to [self]. *)
Definition call {A} (o : outcome A) : method A := fun self => (o, self).

(** [l[i]] on a Python list. *)
Definition getitem {A} (l : list A) (i : nat) : method A :=
  match nth_error l i with
  | Some a => ret a
  | None => raise IndexError
  end.

Notation "x <- m ;; k" := (bind m (fun x => k))
  (at level 61, m at next level, right associativity).

(** The value a method call evaluates to, and the object it leaves. *)
Definition result {A} (m : method A) (self : Panel) : outcome A := fst (m self).
Definition after {A} (m : method A) (self : Panel) : Panel := snd (m self).

(** [Panel(P1, P2, P3, P4)]: the object, or the exception of [__init__]. *)
Definition __init__ (p1 p2 p3 p4 : point) : outcome Panel :=
  let self := {| P1 := p1; P2 := p2; P3 := p3; P4 := p4 |} in
  let P1P2 := np_sub (P2 self) (P1 self) in
  let P3P4 := np_sub (P4 self) (P3 self) in
  if ne (np_cross P1P2 P3P4) 0
  then Raises (ValueError msg_not_parallel)
  else Returns self.

(** Modelled from the spec: [area_4points] of [pyvlm/geometry.py], which is
    not part of the sources.  The area of the quadrilateral as the sum of
    half the magnitude of the cross products of successive edges, that is of
    the two triangles P1 P2 P3 and P3 P4 P1. *)
Definition area_4points (p1 p2 p3 p4 : point) : float :=
  0.5 * abs (np_cross (np_sub p2 p1) (np_sub p3 p2))
  + 0.5 * abs (np_cross (np_sub p4 p3) (np_sub p1 p4)).

Definition area : method float :=
  p1 <- attr P1;; p2 <- attr P2;; p3 <- attr P3;; p4 <- attr P4;;
  ret (area_4points p1 p2 p3 p4).

Definition span : method float :=
  p3 <- attr P3;; p2 <- attr P2;;
  let b := (py p3 - py p2)%float in
  p4 <- attr P4;; p1 <- attr P1;;
  let b__ := (py p4 - py p1)%float in
  if ne (abs b) (abs b__)
  then raise (ValueError msg_unequal_span)
  else ret (abs b).

(** The functions of [pyvlm/vortices.py] the class imports.  That module is
    not part of the sources: the class is verified against any
    implementation of it.  Both functions are given array values, may raise,
    and have no access to the Panel object.  [vortex_position_in_panel]
    returns its points as a list, in the order [[P, A, B, C, D]]. *)
Class Vortices : Type := {
  velocity : Type;
  vortex_position_in_panel :
    point -> point -> point -> point -> outcome (list point);
  v_induced_by_horseshoe_vortex :
    point -> point -> point -> point -> point -> outcome velocity
}.

Section PanelVortex.
Context {V : Vortices}.

Definition _vortex_position : method (list point) :=
  p1 <- attr P1;; p2 <- attr P2;; p3 <- attr P3;; p4 <- attr P4;;
  points_of_the_vortex <- call (vortex_position_in_panel p1 p2 p3 p4);;
  ret points_of_the_vortex.

Definition control_point : method point :=
  points <- _vortex_position;;
  control_point_position <- getitem points 0;;
  ret control_point_position.

Definition induced_velocity (control_point_pos : point) : method velocity :=
  _points_vortex <- _vortex_position;;
  a <- getitem _points_vortex 1;;
  b <- getitem _points_vortex 2;;
  c <- getitem _points_vortex 3;;
  d <- getitem _points_vortex 4;;
  v <- call (v_induced_by_horseshoe_vortex control_point_pos a b c d);;
  ret v.

End PanelVortex.

(** ** The invariants the specification names *)

(** Edge P1P2 is parallel to edge P3P4: the cross product of the two edge
    vectors compares equal to zero. *)
Definition parallel (p1 p2 p3 p4 : point) : bool :=
  (np_cross (np_sub p2 p1) (np_sub p4 p3) =? 0)%float.

(** The two spans |P3.y - P2.y| and |P4.y - P1.y| compare equal. *)
Definition equal_span (p1 p2 p3 p4 : point) : bool :=
  (abs (py p3 - py p2) =? abs (py p4 - py p1))%float.

Definition valid (self : Panel) : Prop :=
  parallel (P1 self) (P2 self) (P3 self) (P4 self) = true /\
  equal_span (P1 self) (P2 self) (P3 self) (P4 self) = true.

(** A query on four corner points: the Panel is constructed first, and the
    method is called on the object if there is one. *)
Definition query {A} (p1 p2 p3 p4 : point) (m : method A) : outcome A :=
  match __init__ p1 p2 p3 p4 with
  | Returns self => result m self
  | Raises e => Raises e
  end.

(** The delegation chain as the specification words it: the control point
    is the first component of the placement, the induced velocity is the
    evaluator applied to the field point and the components A, B, C, D.
    An exception of the placement propagates; a placement with too few
    components makes the indexing raise. *)
Definition first_component (o : outcome (list point)) : outcome point :=
  match o with
  | Returns (p :: _) => Returns p
  | Returns [] => Raises IndexError
  | Raises e => Raises e
  end.

Definition evaluate_horseshoe {V : Vortices} (fp : point)
    (o : outcome (list point)) : outcome velocity :=
  match o with
  | Returns (_ :: a :: b :: c :: d :: _) =>
      v_induced_by_horseshoe_vortex fp a b c d
  | Returns _ => Raises IndexError
  | Raises e => Raises e
  end.

(** A method body that leaves the attributes of [self] as they were. *)
Definition read_only {A} (m : method A) : Prop :=
  forall self, after m self = self.

(** Two calls of a method in sequence, on the same object. *)
Definition twice {A} (m : method A) (self : Panel) : outcome A * outcome A :=
  (result m self, result m (after m self)).

(** A point of the plane: both coordinates are finite numbers. *)
Definition finite_point (q : point) : bool :=
  is_finite (px q) && is_finite (py q).

(** ** Panels and an implementation of the vortex interface used below *)

(** The square of the specification's scenario. *)
Definition scenario_square : Panel :=
  {| P1 := Point 1 0; P2 := Point 1 1; P3 := Point 0 1; P4 := Point 0 0 |}.

(** The unit square laid out as in the class docstring: P2 and P1 on the x
    axis, P3 above P2 and P4 above P1. *)
Definition docstring_square : Panel :=
  {| P1 := Point 1 0; P2 := Point 0 0; P3 := Point 0 1; P4 := Point 1 1 |}.

(** Edges P1P2 and P3P4 parallel, along (1,1), with spans 1 and 2. *)
Definition skewed : Panel :=
  {| P1 := Point 2 2; P2 := Point 0 0; P3 := Point 0 1; P4 := Point 3 4 |}.

(** An implementation of [Vortices] to run the methods on: the points are
    the mid-point of the panel's diagonal P1P3 and the four corners, and the
    velocity is the list of the five arguments. *)
Definition sample_vortices : Vortices := {|
  velocity := list point;
  vortex_position_in_panel := fun p1 p2 p3 p4 =>
    Returns [ {| px := 0.5 * (px p1 + px p3); py := 0.5 * (py p1 + py p3) |};
              p1; p2; p3; p4 ];
  v_induced_by_horseshoe_vortex := fun fp a b c d => Returns [fp; a; b; c; d]
|}.

(** ** Relabellings of a Panel, and further implementations of the vortex
    interface *)

(** An infinity or a NaN, in the specification format of binary64. *)
Definition SFnonfinite (s : spec_float) : bool :=
  match s with
  | S754_infinity _ | S754_nan => true
  | _ => false
  end.

Definition finite_panel (self : Panel) : bool :=
  finite_point (P1 self) && finite_point (P2 self) &&
  finite_point (P3 self) && finite_point (P4 self).

(** P1 and P2 exchanged, and P3 and P4: the panel seen from the other side
    of the y axis. *)
Definition mirror (self : Panel) : Panel :=
  {| P1 := P2 self; P2 := P1 self; P3 := P4 self; P4 := P3 self |}.

(** P1 and P4 exchanged, and P2 and P3: the panel upside down. *)
Definition flip (self : Panel) : Panel :=
  {| P1 := P4 self; P2 := P3 self; P3 := P2 self; P4 := P1 self |}.

(** The edge P3P4 given first and the edge P1P2 second. *)
Definition exchange (self : Panel) : Panel :=
  {| P1 := P3 self; P2 := P4 self; P3 := P1 self; P4 := P2 self |}.

(** A placement that raises, and one that returns three points only. *)
Definition raising_vortices : Vortices := {|
  velocity := list point;
  vortex_position_in_panel := fun _ _ _ _ => Raises (OtherError "ZeroDivisionError");
  v_induced_by_horseshoe_vortex := fun fp a b c d => Returns [fp; a; b; c; d]
|}.

Definition short_vortices : Vortices := {|
  velocity := list point;
  vortex_position_in_panel := fun p1 p2 p3 _ => Returns [p1; p2; p3];
  v_induced_by_horseshoe_vortex := fun fp a b c d => Returns [fp; a; b; c; d]
|}.

(** * Properties *)

(** ** Facts on binary64 numbers *)

Section Binary64.
Open Scope float_scope.

Lemma Prim2SF_zero : Prim2SF 0 = S754_zero false.
Proof. reflexivity. Qed.

Lemma Prim2SF_infinity : Prim2SF infinity = S754_infinity false.
Proof. reflexivity. Qed.

(** A magnitude that compares equal to something is not a NaN, hence it is
    not below zero. *)
Lemma abs_eqb_nonneg (b c : float) :
  (abs b =? c) = true -> (0 <=? abs b) = true.
Proof.
  rewrite eqb_spec, leb_spec, abs_spec, Prim2SF_zero.
  destruct (Prim2SF b) as [s | s | | s m e]; cbn;
    try reflexivity; discriminate.
Qed.

(** Such a magnitude is above zero exactly when the number is not zero. *)
Lemma abs_eqb_pos (b c : float) :
  (abs b =? c) = true -> (0 <? abs b) = ne b 0.
Proof.
  unfold ne.
  rewrite !eqb_spec, ltb_spec, abs_spec, Prim2SF_zero.
  destruct (Prim2SF b) as [s | s | | s m e]; cbn;
    try reflexivity; try discriminate.
  all: destruct s; reflexivity.
Qed.

(** Two magnitudes that compare equal are the same number. *)
Lemma abs_eqb_eq (b c : float) : (abs b =? abs c) = true -> abs b = abs c.
Proof.
  intros H. apply Prim2SF_inj. rewrite eqb_spec in H.
  rewrite !abs_spec in *.
  destruct (Prim2SF b) as [s | s | | s m e],
           (Prim2SF c) as [s' | s' | | s' m' e'];
    cbn in H; try discriminate; try reflexivity.
  unfold SFeqb, SFcompare in H.
  destruct (Z.compare_spec e e') as [He | He | He]; try discriminate.
  change (Pos.compare_cont Eq m m') with (Pos.compare m m') in H.
  destruct (Pos.compare_spec m m') as [Hm | Hm | Hm]; try discriminate.
  subst. reflexivity.
Qed.

(** The difference of a finite number with itself is +0. *)
Lemma sub_diag_finite (x : float) : is_finite x = true -> x - x = 0.
Proof.
  unfold is_finite, is_nan, is_infinity. intros H.
  apply Prim2SF_inj. rewrite sub_spec, Prim2SF_zero.
  rewrite !eqb_spec, abs_spec, Prim2SF_infinity in H.
  destruct (Prim2SF x) as [s | s | | s m e]; cbn in H; try discriminate.
  - destruct s; reflexivity.
  - destruct s; discriminate.
  - unfold SF64sub, SFsub. cbv zeta. rewrite Z.sub_diag. reflexivity.
Qed.

(** The difference of an infinity or a NaN with itself is a NaN. *)
Lemma sub_diag_not_finite (x : float) :
  is_finite x = false -> Prim2SF (x - x) = S754_nan.
Proof.
  unfold is_finite, is_nan, is_infinity. intros H.
  rewrite sub_spec.
  rewrite !eqb_spec, abs_spec, Prim2SF_infinity in H.
  destruct (Prim2SF x) as [s | s | | s m e]; cbn in H; try discriminate.
  - destruct s; reflexivity.
  - reflexivity.
  - exfalso. unfold SFeqb, SFcompare in H.
    rewrite Z.compare_refl in H.
    change (Pos.compare_cont Eq m m) with (Pos.compare m m) in H.
    rewrite Pos.compare_refl in H.
    destruct s; discriminate.
Qed.

Lemma mul_nan_l (x y : float) :
  Prim2SF x = S754_nan -> Prim2SF (x * y) = S754_nan.
Proof. intros H. rewrite mul_spec, H. reflexivity. Qed.

Lemma mul_nan_r (x y : float) :
  Prim2SF y = S754_nan -> Prim2SF (x * y) = S754_nan.
Proof.
  intros H. rewrite mul_spec, H. destruct (Prim2SF x); reflexivity.
Qed.

Lemma sub_nan_l (x y : float) :
  Prim2SF x = S754_nan -> Prim2SF (x - y) = S754_nan.
Proof. intros H. rewrite sub_spec, H. reflexivity. Qed.

Lemma ne_nan (x y : float) : Prim2SF x = S754_nan -> ne x y = true.
Proof. intros H. unfold ne. rewrite eqb_spec, H. reflexivity. Qed.

End Binary64.

(** ** Facts on method bodies *)

Create HintDb read_only.

Lemma read_only_ret {A} (a : A) : read_only (ret a).
Proof. intros self. reflexivity. Qed.

Lemma read_only_raise {A} (e : exn) : read_only (raise (A := A) e).
Proof. intros self. reflexivity. Qed.

Lemma read_only_attr {A} (f : Panel -> A) : read_only (attr f).
Proof. intros self. reflexivity. Qed.

Lemma read_only_call {A} (o : outcome A) : read_only (call o).
Proof. intros self. reflexivity. Qed.

Lemma read_only_getitem {A} (l : list A) (i : nat) : read_only (getitem l i).
Proof.
  unfold getitem. destruct (nth_error l i);
    [apply read_only_ret | apply read_only_raise].
Qed.

Lemma read_only_bind {A B} (m : method A) (f : A -> method B) :
  read_only m -> (forall a, read_only (f a)) -> read_only (bind m f).
Proof.
  intros Hm Hf self. unfold after, bind.
  specialize (Hm self). unfold after in Hm.
  destruct (m self) as [[a | e] self']; cbn in Hm; subst self'.
  - apply Hf.
  - reflexivity.
Qed.

Lemma read_only_if {A} (c : bool) (m1 m2 : method A) :
  read_only m1 -> read_only m2 -> read_only (if c then m1 else m2).
Proof. destruct c; trivial. Qed.

#[local] Hint Resolve read_only_ret read_only_raise read_only_attr
  read_only_call read_only_getitem read_only_if : read_only.

Ltac read_only_body :=
  repeat (apply read_only_bind; [ | intros ?]); cbv zeta; auto with read_only.

Lemma read_only_area : read_only area.
Proof. unfold area. read_only_body. Qed.

Lemma read_only_span : read_only span.
Proof. unfold span. read_only_body. Qed.

(** On an unchanged object a second call evaluates as the first. *)
Lemma twice_read_only {A} (m : method A) (self : Panel) :
  read_only m -> fst (twice m self) = snd (twice m self).
Proof. intros H. unfold twice. cbn. rewrite H. reflexivity. Qed.

(** What the two guarded operations evaluate to. *)
Lemma init_eq (p1 p2 p3 p4 : point) :
  __init__ p1 p2 p3 p4 =
  if parallel p1 p2 p3 p4 then Returns (mkPanel p1 p2 p3 p4)
  else Raises (ValueError msg_not_parallel).
Proof.
  unfold __init__, parallel, ne. cbn [P1 P2 P3 P4].
  destruct (np_cross (np_sub p2 p1) (np_sub p4 p3) =? 0)%float; reflexivity.
Qed.

Lemma span_eq (self : Panel) :
  result span self =
  if equal_span (P1 self) (P2 self) (P3 self) (P4 self)
  then Returns (abs (py (P3 self) - py (P2 self)))
  else Raises (ValueError msg_unequal_span).
Proof.
  unfold result, span, equal_span, ne, bind, attr. cbn [fst].
  destruct (abs (py (P3 self) - py (P2 self)) =?
            abs (py (P4 self) - py (P1 self)))%float; reflexivity.
Qed.

Lemma area_eq (self : Panel) :
  result area self =
  Returns (area_4points (P1 self) (P2 self) (P3 self) (P4 self)).
Proof. reflexivity. Qed.

Section PanelVortexFacts.
Context {V : Vortices}.

Lemma read_only_vortex_position : read_only _vortex_position.
Proof. unfold _vortex_position. read_only_body. Qed.

Lemma read_only_control_point : read_only control_point.
Proof.
  unfold control_point.
  apply read_only_bind; [apply read_only_vortex_position | intros ?].
  read_only_body.
Qed.

Lemma read_only_induced_velocity (fp : point) :
  read_only (induced_velocity fp).
Proof.
  unfold induced_velocity.
  apply read_only_bind; [apply read_only_vortex_position | intros ?].
  read_only_body.
Qed.

Lemma vortex_position_eq (self : Panel) :
  result _vortex_position self =
  vortex_position_in_panel (P1 self) (P2 self) (P3 self) (P4 self).
Proof.
  unfold result, _vortex_position, bind, attr, call, ret. cbn.
  destruct (vortex_position_in_panel _ _ _ _); reflexivity.
Qed.

(** [control_point] and [induced_velocity] follow the delegation chain. *)
Lemma control_point_eq (self : Panel) :
  result control_point self =
  first_component
    (vortex_position_in_panel (P1 self) (P2 self) (P3 self) (P4 self)).
Proof.
  unfold result, control_point, _vortex_position, bind, attr, call, ret. cbn.
  destruct (vortex_position_in_panel _ _ _ _) as [[ | p l] | e]; reflexivity.
Qed.

Lemma induced_velocity_eq (fp : point) (self : Panel) :
  result (induced_velocity fp) self =
  evaluate_horseshoe fp
    (vortex_position_in_panel (P1 self) (P2 self) (P3 self) (P4 self)).
Proof.
  unfold result, induced_velocity, _vortex_position, bind, attr, call, ret.
  cbn.
  destruct (vortex_position_in_panel _ _ _ _)
    as [[ | p [ | a [ | b [ | c [ | d l]]]]] | e]; try reflexivity.
  cbn. destruct (v_induced_by_horseshoe_vortex fp a b c d); reflexivity.
Qed.

End PanelVortexFacts.

(** Two numbers that compare unequal are different numbers. *)
Lemma eqb_false_neq (a b : float) : (a =? b)%float = false -> (b =? b)%float = true -> a <> b.
Proof. intros H1 H2 E. rewrite E in H1. congruence. Qed.

Lemma Returns_inj {A} (a b : A) : Returns a = Returns b -> a = b.
Proof. intros E. injection E. trivial. Qed.

(** A query on parallel edges reaches the method, on others it does not. *)
Lemma query_parallel {A} (p1 p2 p3 p4 : point) (m : method A) :
  parallel p1 p2 p3 p4 = true ->
  query p1 p2 p3 p4 m = result m (mkPanel p1 p2 p3 p4).
Proof. intros H. unfold query. rewrite init_eq, H. reflexivity. Qed.

Lemma query_not_parallel {A} (p1 p2 p3 p4 : point) (m : method A) :
  parallel p1 p2 p3 p4 = false ->
  query p1 p2 p3 p4 m = Raises (ValueError msg_not_parallel).
Proof. intros H. unfold query. rewrite init_eq, H. reflexivity. Qed.

(** ** The claims *)

(** *** Construction and the equal-span invariant *)

(** C1, as stated, does not hold: the corner points (2,2), (0,0), (0,1),
    (3,4) have the spans 1 and 2, and the constructor returns the Panel,
    because the edges P1P2 and P3P4 are parallel. *)
Lemma unequal_span_panel_is_constructed :
  ~ (forall p1 p2 p3 p4 : point,
       equal_span p1 p2 p3 p4 = false ->
       exists e, __init__ p1 p2 p3 p4 = Raises e /\ MalformedPanel e).
Proof.
  intros H.
  destruct (H (Point 2 2) (Point 0 0) (Point 0 1) (Point 3 4)) as [e [He _]].
  - vm_compute. reflexivity.
  - vm_compute in He. discriminate He.
Qed.

(** C1, amended: on corner points with unequal spans the constructor raises
    only when the edges P1P2 and P3P4 are not parallel; when they are
    parallel the Panel is created, and it is [span] that raises the
    unequal-span error on it. *)
Theorem unequal_span_is_found_by_span (p1 p2 p3 p4 : point) :
  equal_span p1 p2 p3 p4 = false ->
  (parallel p1 p2 p3 p4 = false ->
     __init__ p1 p2 p3 p4 = Raises (ValueError msg_not_parallel)) /\
  (parallel p1 p2 p3 p4 = true ->
     __init__ p1 p2 p3 p4 = Returns (mkPanel p1 p2 p3 p4) /\
     result span (mkPanel p1 p2 p3 p4) = Raises (ValueError msg_unequal_span)).
Proof.
  intros Hspan. split; intros Hpar.
  - rewrite init_eq, Hpar. reflexivity.
  - split.
    + rewrite init_eq, Hpar. reflexivity.
    + rewrite span_eq. cbn [P1 P2 P3 P4]. rewrite Hspan. reflexivity.
Qed.

Lemma unequal_span_is_found_by_span_witness :
  equal_span (P1 skewed) (P2 skewed) (P3 skewed) (P4 skewed) = false /\
  __init__ (P1 skewed) (P2 skewed) (P3 skewed) (P4 skewed) = Returns skewed /\
  result span skewed = Raises (ValueError msg_unequal_span).
Proof.
  split; [vm_compute; reflexivity | ].
  apply (unequal_span_is_found_by_span
           (P1 skewed) (P2 skewed) (P3 skewed) (P4 skewed));
    vm_compute; reflexivity.
Defined.

(** *** The scenario of the unit square *)

(** C2, as stated, does not hold: on the corner points (1,0), (1,1), (0,1),
    (0,0) both P3.y - P2.y and P4.y - P1.y are 0, and [span] returns 0. *)
Lemma scenario_span_is_not_one :
  ~ (query (Point 1 0) (Point 1 1) (Point 0 1) (Point 0 0) area = Returns 1%float /\
     query (Point 1 0) (Point 1 1) (Point 0 1) (Point 0 0) span = Returns 1%float).
Proof.
  intros [_ H]. vm_compute in H. apply Returns_inj in H.
  revert H. apply eqb_false_neq; vm_compute; reflexivity.
Qed.

(** C2, amended: the Panel of the corner points (1,0), (1,1), (0,1), (0,0)
    is constructed, [area] returns 1.0 and [span] returns 0.0. *)
Theorem scenario_area_and_span :
  __init__ (Point 1 0) (Point 1 1) (Point 0 1) (Point 0 0) =
    Returns scenario_square /\
  query (Point 1 0) (Point 1 1) (Point 0 1) (Point 0 0) area = Returns 1%float /\
  query (Point 1 0) (Point 1 1) (Point 0 1) (Point 0 0) span = Returns 0%float.
Proof. repeat split; vm_compute; reflexivity. Qed.

(** The unit square laid out as the class docstring draws it has span 1. *)
Example docstring_square_area_and_span :
  __init__ (Point 1 0) (Point 0 0) (Point 0 1) (Point 1 1) =
    Returns docstring_square /\
  result area docstring_square = Returns 1%float /\
  result span docstring_square = Returns 1%float.
Proof. repeat split; vm_compute; reflexivity. Qed.

(** *** Construction and the parallel-edges invariant *)

(** C3: the constructor raises the not-parallel error, a Malformed-Panel
    error, when the cross product of P2 - P1 and P4 - P3 is not zero, and
    returns the Panel of the four corners when it is zero. *)
Theorem init_checks_parallel_edges (p1 p2 p3 p4 : point) :
  let c := np_cross (np_sub p2 p1) (np_sub p4 p3) in
  (ne c 0 = true ->
     __init__ p1 p2 p3 p4 = Raises (ValueError msg_not_parallel) /\
     MalformedPanel (ValueError msg_not_parallel)) /\
  ((c =? 0)%float = true ->
     __init__ p1 p2 p3 p4 = Returns (mkPanel p1 p2 p3 p4)).
Proof.
  cbv zeta. unfold ne. rewrite init_eq. unfold parallel.
  destruct (np_cross (np_sub p2 p1) (np_sub p4 p3) =? 0)%float; cbn.
  - split; [discriminate | reflexivity].
  - split; [ | discriminate]. intros _. split; [reflexivity | left; reflexivity].
Qed.

(** Both cases occur. *)
Example init_raises_on_crossing_edges :
  __init__ (Point 1 0) (Point 0 0) (Point 0 1) (Point 1 2) =
  Raises (ValueError msg_not_parallel).
Proof. vm_compute. reflexivity. Qed.

(** *** The check of span *)

(** C4: [span] raises the unequal-span error, a Malformed-Panel error,
    exactly when |P3.y - P2.y| and |P4.y - P1.y| do not compare equal, and
    raises nothing else; it does so on Panels the constructor returned. *)
Theorem span_rechecks_equal_span :
  (forall self : Panel,
     (equal_span (P1 self) (P2 self) (P3 self) (P4 self) = false <->
      result span self = Raises (ValueError msg_unequal_span)) /\
     (forall e, result span self = Raises e ->
        e = ValueError msg_unequal_span /\ MalformedPanel e)) /\
  (exists p1 p2 p3 p4 self,
     __init__ p1 p2 p3 p4 = Returns self /\
     result span self = Raises (ValueError msg_unequal_span)).
Proof.
  split.
  - intros self. rewrite span_eq.
    destruct (equal_span (P1 self) (P2 self) (P3 self) (P4 self)).
    + split; [split; discriminate | intros e; discriminate].
    + split; [split; reflexivity | ].
      intros e He. injection He as <-. split; [reflexivity | right; reflexivity].
  - exists (Point 2 2), (Point 0 0), (Point 0 1), (Point 3 4), skewed.
    split; vm_compute; reflexivity.
Qed.

(** *** The value of span *)

(** C5, as stated, does not hold: the Panel of the corner points (1,0),
    (1,1), (0,1), (0,0) has parallel edges and equal spans, and its span is
    0, which is not a positive value. *)
Lemma span_of_valid_panel_may_be_zero :
  ~ (forall self : Panel,
       valid self ->
       exists v, result span self = Returns v /\ (0 <? v)%float = true /\
                 v = abs (py (P3 self) - py (P2 self)) /\
                 v = abs (py (P4 self) - py (P1 self))).
Proof.
  intros H. destruct (H scenario_square) as [v [Hv [Hpos _]]].
  - split; vm_compute; reflexivity.
  - vm_compute in Hv. apply Returns_inj in Hv. subst v.
    vm_compute in Hpos. discriminate Hpos.
Qed.

(** C5, amended: on a valid Panel [span] returns, without error, a value
    that is equal to both |P3.y - P2.y| and |P4.y - P1.y| and is not
    negative; it is positive exactly when P3.y - P2.y is not zero. *)
Theorem span_of_valid_panel (self : Panel) :
  valid self ->
  let b := (py (P3 self) - py (P2 self))%float in
  let b__ := (py (P4 self) - py (P1 self))%float in
  result span self = Returns (abs b) /\
  abs b = abs b__ /\
  (0 <=? abs b)%float = true /\
  (0 <? abs b)%float = ne b 0.
Proof.
  intros [_ Heq] b b__. unfold equal_span in Heq. fold b b__ in Heq.
  repeat split.
  - rewrite span_eq. unfold equal_span. fold b b__. rewrite Heq. reflexivity.
  - apply abs_eqb_eq, Heq.
  - apply abs_eqb_nonneg with (c := abs b__), Heq.
  - apply abs_eqb_pos with (c := abs b__), Heq.
Qed.

Lemma span_of_valid_panel_witness :
  valid docstring_square /\
  result span docstring_square = Returns 1%float /\
  (0 <? 1)%float = true.
Proof.
  assert (Hv : valid docstring_square) by (split; vm_compute; reflexivity).
  split; [exact Hv | ].
  destruct (span_of_valid_panel docstring_square Hv) as [Hs [_ [_ Hp]]].
  split; [exact Hs | exact Hp].
Defined.

(** *** Queries on invalid corner points *)

(** C6, as stated, does not hold: the corner points (2,2), (0,0), (0,1),
    (3,4) violate the equal-span invariant, the Panel is constructed, and
    [area] returns 2.5 on it. *)
Lemma area_of_unequal_span_panel_returns :
  ~ (forall (V : Vortices) (p1 p2 p3 p4 fp : point),
       parallel p1 p2 p3 p4 && equal_span p1 p2 p3 p4 = false ->
       (exists e, query p1 p2 p3 p4 area = Raises e) /\
       (exists e, query p1 p2 p3 p4 span = Raises e) /\
       (exists e, query p1 p2 p3 p4 control_point = Raises e) /\
       (exists e, query p1 p2 p3 p4 (induced_velocity fp) = Raises e)).
Proof.
  intros H.
  destruct (H sample_vortices (Point 2 2) (Point 0 0) (Point 0 1) (Point 3 4)
              (Point 7 8)) as [[e He] _].
  - vm_compute. reflexivity.
  - vm_compute in He. discriminate He.
Qed.

(** C6, amended: on corner points that violate the parallel-edges invariant
    the constructor raises, and no query returns a value.  On corner points
    with parallel edges and unequal spans the Panel is constructed: [span]
    raises, while [area], [control_point] and [induced_velocity] check
    nothing and evaluate to what the functions they delegate to give. *)
Theorem queries_on_invalid_corners {V : Vortices} (p1 p2 p3 p4 fp : point) :
  (parallel p1 p2 p3 p4 = false ->
     query p1 p2 p3 p4 area = Raises (ValueError msg_not_parallel) /\
     query p1 p2 p3 p4 span = Raises (ValueError msg_not_parallel) /\
     query p1 p2 p3 p4 control_point = Raises (ValueError msg_not_parallel) /\
     query p1 p2 p3 p4 (induced_velocity fp) =
       Raises (ValueError msg_not_parallel)) /\
  (parallel p1 p2 p3 p4 = true /\ equal_span p1 p2 p3 p4 = false ->
     query p1 p2 p3 p4 span = Raises (ValueError msg_unequal_span) /\
     query p1 p2 p3 p4 area = Returns (area_4points p1 p2 p3 p4) /\
     query p1 p2 p3 p4 control_point =
       first_component (vortex_position_in_panel p1 p2 p3 p4) /\
     query p1 p2 p3 p4 (induced_velocity fp) =
       evaluate_horseshoe fp (vortex_position_in_panel p1 p2 p3 p4)).
Proof.
  split.
  - intros Hpar. repeat split; apply query_not_parallel, Hpar.
  - intros [Hpar Hspan]. rewrite !query_parallel by exact Hpar.
    rewrite span_eq, area_eq, control_point_eq, induced_velocity_eq.
    cbn [P1 P2 P3 P4]. rewrite Hspan. repeat split.
Qed.

(** *** Delegation to the vortex functions *)

(** C7: when the placement on the panel's corners returns [[P, A, B, C, D]],
    [induced_velocity fp] evaluates to
    [v_induced_by_horseshoe_vortex fp A B C D]. *)
Theorem induced_velocity_chains_placement {V : Vortices}
    (self : Panel) (fp P A B C D : point) :
  vortex_position_in_panel (P1 self) (P2 self) (P3 self) (P4 self) =
    Returns [P; A; B; C; D] ->
  result (induced_velocity fp) self =
    v_induced_by_horseshoe_vortex fp A B C D.
Proof. intros H. rewrite induced_velocity_eq, H. reflexivity. Qed.

Lemma induced_velocity_chains_placement_witness :
  @vortex_position_in_panel sample_vortices
    (Point 2 2) (Point 0 0) (Point 0 1) (Point 3 4) =
    Returns [Point 1 1.5; Point 2 2; Point 0 0; Point 0 1; Point 3 4] /\
  result (@induced_velocity sample_vortices (Point 7 8)) skewed =
    Returns [Point 7 8; Point 2 2; Point 0 0; Point 0 1; Point 3 4].
Proof.
  assert (H : @vortex_position_in_panel sample_vortices
                (P1 skewed) (P2 skewed) (P3 skewed) (P4 skewed) =
              Returns [Point 1 1.5; Point 2 2; Point 0 0; Point 0 1; Point 3 4])
    by (vm_compute; reflexivity).
  split; [exact H | ].
  exact (@induced_velocity_chains_placement sample_vortices skewed (Point 7 8)
           _ _ _ _ _ H).
Defined.

(** C8: when the placement on the panel's corners returns [[P, A, B, C, D]],
    [control_point] evaluates to P, its first element. *)
Theorem control_point_is_first_of_placement {V : Vortices}
    (self : Panel) (P A B C D : point) :
  vortex_position_in_panel (P1 self) (P2 self) (P3 self) (P4 self) =
    Returns [P; A; B; C; D] ->
  result control_point self = Returns P.
Proof. intros H. rewrite control_point_eq, H. reflexivity. Qed.

Lemma control_point_is_first_of_placement_witness :
  @vortex_position_in_panel sample_vortices
    (Point 2 2) (Point 0 0) (Point 0 1) (Point 3 4) =
    Returns [Point 1 1.5; Point 2 2; Point 0 0; Point 0 1; Point 3 4] /\
  result (@control_point sample_vortices) skewed = Returns (Point 1 1.5).
Proof.
  assert (H : @vortex_position_in_panel sample_vortices
                (P1 skewed) (P2 skewed) (P3 skewed) (P4 skewed) =
              Returns [Point 1 1.5; Point 2 2; Point 0 0; Point 0 1; Point 3 4])
    by (vm_compute; reflexivity).
  split; [exact H | ].
  exact (@control_point_is_first_of_placement sample_vortices skewed
           _ _ _ _ _ H).
Defined.

(** *** The queries leave the Panel as it is *)

(** C9: [area], [span], [control_point] and [induced_velocity fp] leave the
    four corners of the Panel unchanged, and a second call of each on the
    same Panel evaluates to the same outcome as the first. *)
Theorem queries_are_read_only {V : Vortices} (self : Panel) (fp : point) :
  (after area self = self /\
   after span self = self /\
   after control_point self = self /\
   after (induced_velocity fp) self = self) /\
  (fst (twice area self) = snd (twice area self) /\
   fst (twice span self) = snd (twice span self) /\
   fst (twice control_point self) = snd (twice control_point self) /\
   fst (twice (induced_velocity fp) self) =
     snd (twice (induced_velocity fp) self)).
Proof.
  pose proof read_only_area as Ha.
  pose proof read_only_span as Hs.
  pose proof read_only_control_point as Hc.
  pose proof (read_only_induced_velocity fp) as Hv.
  split; repeat split;
    solve [ apply Ha | apply Hs | apply Hc | apply Hv
          | apply twice_read_only; assumption ].
Qed.

(** *** Panels of zero size *)

Lemma np_sub_diag_finite (q : point) :
  finite_point q = true -> np_sub q q = Point 0 0.
Proof.
  unfold finite_point. intros H. apply andb_prop in H. destruct H as [Hx Hy].
  unfold np_sub. rewrite (sub_diag_finite _ Hx), (sub_diag_finite _ Hy).
  reflexivity.
Qed.

Lemma np_cross_diag_not_finite (q : point) :
  finite_point q = false ->
  Prim2SF (np_cross (np_sub q q) (np_sub q q)) = S754_nan.
Proof.
  unfold finite_point. intros H. apply andb_false_iff in H.
  unfold np_cross, np_sub. cbn [px py].
  apply sub_nan_l. destruct H as [Hx | Hy].
  - apply mul_nan_l, sub_diag_not_finite, Hx.
  - apply mul_nan_r, sub_diag_not_finite, Hy.
Qed.

(** C10, as stated, does not hold: for Q = (inf, 0) the difference Q - Q is
    (nan, 0), the cross product is a NaN, which is not equal to 0, and the
    constructor raises. *)
Lemma degenerate_panel_at_infinity_is_rejected :
  ~ (forall q : point,
       __init__ q q q q = Returns (mkPanel q q q q) /\
       result span (mkPanel q q q q) = Returns 0%float).
Proof.
  intros H. destruct (H (Point infinity 0)) as [H1 _].
  vm_compute in H1. discriminate H1.
Qed.

(** C10, amended: for every point Q with finite coordinates the constructor
    returns the Panel of Q, Q, Q, Q, [span] returns 0 on it, [area] returns
    0, and [control_point] and [induced_velocity] hand the corners to the
    vortex functions without a check of their own.  When a coordinate of Q
    is an infinity or a NaN, the constructor raises the not-parallel
    error. *)
Theorem degenerate_panel_is_accepted {V : Vortices} (q fp : point) :
  (finite_point q = true ->
     __init__ q q q q = Returns (mkPanel q q q q) /\
     result span (mkPanel q q q q) = Returns 0%float /\
     result area (mkPanel q q q q) = Returns 0%float /\
     result control_point (mkPanel q q q q) =
       first_component (vortex_position_in_panel q q q q) /\
     result (induced_velocity fp) (mkPanel q q q q) =
       evaluate_horseshoe fp (vortex_position_in_panel q q q q)) /\
  (finite_point q = false ->
     __init__ q q q q = Raises (ValueError msg_not_parallel)).
Proof.
  split; intros Hq.
  - pose proof (np_sub_diag_finite q Hq) as Hd.
    assert (Hy : (py q - py q)%float = 0%float).
    { apply (f_equal py) in Hd. exact Hd. }
    repeat split.
    + rewrite init_eq. unfold parallel. rewrite Hd. reflexivity.
    + rewrite span_eq. unfold equal_span. cbn [P1 P2 P3 P4].
      rewrite Hy. reflexivity.
    + rewrite area_eq. unfold area_4points. cbn [P1 P2 P3 P4].
      rewrite Hd. reflexivity.
    + apply control_point_eq.
    + apply induced_velocity_eq.
  - unfold __init__. cbn [P1 P2 P3 P4].
    rewrite (ne_nan _ _ (np_cross_diag_not_finite q Hq)). reflexivity.
Qed.

(** * Further properties of the class *)

(** ** Binary64: infinities, NaN and rounding *)

Section Binary64Rounding.
Open Scope float_scope.

Lemma SFeqb_refl_finite s m e : SFeqb (S754_finite s m e) (S754_finite s m e) = true.
Proof.
  unfold SFeqb, SFcompare. rewrite Z.compare_refl.
  change (Pos.compare_cont Eq m m) with (Pos.compare m m).
  rewrite Pos.compare_refl. destruct s; reflexivity.
Qed.

Lemma is_finite_SF (x : float) : is_finite x = negb (SFnonfinite (Prim2SF x)).
Proof.
  unfold is_finite, is_nan, is_infinity.
  rewrite !eqb_spec, abs_spec.
  change (Prim2SF infinity) with (S754_infinity false).
  destruct (Prim2SF x) as [s | s | | s m e].
  - reflexivity.
  - destruct s; reflexivity.
  - reflexivity.
  - rewrite SFeqb_refl_finite. reflexivity.
Qed.

Lemma SFsub_nonfinite_l x y : SFnonfinite x = true -> SFnonfinite (SF64sub x y) = true.
Proof. destruct x as [s | s | | s m e], y as [s' | s' | | s' m' e']; try discriminate; try reflexivity; destruct s, s'; reflexivity. Qed.

Lemma SFsub_nonfinite_r x y : SFnonfinite y = true -> SFnonfinite (SF64sub x y) = true.
Proof. destruct x as [s | s | | s m e], y as [s' | s' | | s' m' e']; try discriminate; try reflexivity; destruct s, s'; reflexivity. Qed.

Lemma SFmul_nonfinite_l x y : SFnonfinite x = true -> SFnonfinite (SF64mul x y) = true.
Proof. destruct x as [s | s | | s m e], y as [s' | s' | | s' m' e']; try discriminate; reflexivity. Qed.

Lemma SFmul_nonfinite_r x y : SFnonfinite y = true -> SFnonfinite (SF64mul x y) = true.
Proof. destruct x as [s | s | | s m e], y as [s' | s' | | s' m' e']; try discriminate; reflexivity. Qed.

Lemma SFeqb_nonfinite_zero x s : SFnonfinite x = true -> SFeqb x (S754_zero s) = false.
Proof. destruct x as [s0 | s0 | | s0 m e]; try discriminate; intros _; [destruct s0 | ]; reflexivity. Qed.

(** Rounding a mantissa that is not negative never gives a NaN. *)
Lemma shr_1_nonneg mrs : (0 <= shr_m mrs)%Z -> (0 <= shr_m (shr_1 mrs))%Z.
Proof.
  destruct mrs as [m r s]. cbn [shr_m]. intros H. unfold shr_1.
  destruct m as [ | [p | p | ] | p]; cbn [shr_m]; lia.
Qed.

Lemma iter_shr_1_nonneg p : forall mrs, (0 <= shr_m mrs)%Z -> (0 <= shr_m (iter_pos shr_1 p mrs))%Z.
Proof.
  induction p as [p IH | p IH | ]; intros mrs H; cbn [iter_pos].
  - apply IH, IH, shr_1_nonneg, H.
  - apply IH, IH, H.
  - apply shr_1_nonneg, H.
Qed.

Lemma shr_fexp_nonneg pr em m e l : (0 <= m)%Z -> (0 <= shr_m (fst (shr_fexp pr em m e l)))%Z.
Proof.
  intros H. unfold shr_fexp, shr.
  assert (H0 : (0 <= shr_m (shr_record_of_loc m l))%Z).
  { destruct l as [ | [ | | ]]; exact H. }
  destruct (fexp pr em (Zdigits2 m + e) - e)%Z; cbn [fst]; trivial.
  apply iter_shr_1_nonneg, H0.
Qed.

Lemma round_nearest_even_nonneg m l : (0 <= m)%Z -> (0 <= round_nearest_even m l)%Z.
Proof.
  intros H. unfold round_nearest_even.
  destruct l as [ | [ | | ]]; try lia. destruct (Z.even m); lia.
Qed.

Lemma binary_round_aux_not_nan pr em s m e l :
  (0 <= m)%Z -> SFnonfinite (binary_round_aux pr em s m e l) = true ->
  exists s', binary_round_aux pr em s m e l = S754_infinity s'.
Proof.
  intros H. unfold binary_round_aux.
  pose proof (shr_fexp_nonneg pr em m e l H) as H1.
  destruct (shr_fexp pr em m e l) as [mrs' e']. cbn [fst] in H1.
  pose proof (shr_fexp_nonneg pr em _ e' loc_Exact
                (round_nearest_even_nonneg _ (loc_of_shr_record mrs') H1)) as H2.
  destruct (shr_fexp pr em (round_nearest_even (shr_m mrs') (loc_of_shr_record mrs')) e' loc_Exact) as [mrs'' e''].
  cbn [fst] in H2.
  destruct (shr_m mrs'') as [ | p | p]; try lia.
  - discriminate.
  - destruct (Z.leb e'' (em - pr)); [discriminate | intros _; eexists; reflexivity].
Qed.

Lemma binary_round_aux_abs pr em s s' m e l :
  SFabs (binary_round_aux pr em s m e l) = SFabs (binary_round_aux pr em s' m e l).
Proof.
  unfold binary_round_aux.
  destruct (shr_fexp pr em m e l) as [mrs' e'].
  destruct (shr_fexp pr em _ e' loc_Exact) as [mrs'' e''].
  destruct (shr_m mrs''); try reflexivity.
  destruct (Z.leb e'' (em - pr)); reflexivity.
Qed.

Lemma binary_round_abs pr em s s' m e :
  SFabs (binary_round pr em s m e) = SFabs (binary_round pr em s' m e).
Proof.
  unfold binary_round.
  destruct (shl_align m e _) as [mz ez]. apply binary_round_aux_abs.
Qed.

Lemma binary_round_not_nan pr em s m e : binary_round pr em s m e <> S754_nan.
Proof.
  unfold binary_round. destruct (shl_align m e _) as [mz ez]. intros E.
  destruct (binary_round_aux_not_nan pr em s (Zpos mz) ez loc_Exact) as [s' Hs'].
  - lia.
  - rewrite E. reflexivity.
  - congruence.
Qed.

Lemma binary_normalize_not_nan pr em m e sz : binary_normalize pr em m e sz <> S754_nan.
Proof.
  destruct m; cbn [binary_normalize];
    [discriminate | apply binary_round_not_nan | apply binary_round_not_nan].
Qed.

Lemma binary_normalize_abs_opp pr em m e sz :
  SFabs (binary_normalize pr em (- m) e sz) = SFabs (binary_normalize pr em m e sz).
Proof.
  destruct m; cbn [binary_normalize Z.opp];
    [reflexivity | apply binary_round_abs | apply binary_round_abs].
Qed.

Lemma SFsub_finite_not_nan x y :
  SFnonfinite x = false -> SFnonfinite y = false -> SF64sub x y <> S754_nan.
Proof.
  destruct x as [s | s | | s m e], y as [s' | s' | | s' m' e'];
    try discriminate; intros _ _.
  - destruct s, s'; discriminate.
  - apply binary_normalize_not_nan.
Qed.

Lemma SFabs_sub_sym x y : SFabs (SF64sub x y) = SFabs (SF64sub y x).
Proof.
  destruct x as [s | s | | s m e], y as [s' | s' | | s' m' e'];
    try reflexivity; try (destruct s, s'; reflexivity).
  unfold SF64sub, SFsub. cbv zeta. rewrite (Z.min_comm e' e).
  rewrite <- binary_normalize_abs_opp. f_equal. f_equal. lia.
Qed.

Lemma SFmul_comm x y : SF64mul x y = SF64mul y x.
Proof.
  destruct x as [s | s | | s m e], y as [s' | s' | | s' m' e'];
    try reflexivity; cbn; try (rewrite (xorb_comm s s'); reflexivity).
  unfold SF64mul, SFmul.
  rewrite (xorb_comm s s'), (Pos.mul_comm m m'), (Z.add_comm e e').
  reflexivity.
Qed.

Lemma SFeqb_refl x : x <> S754_nan -> SFeqb x x = true.
Proof.
  destruct x as [s | s | | s m e]; intros H.
  - reflexivity.
  - destruct s; reflexivity.
  - congruence.
  - apply SFeqb_refl_finite.
Qed.

Lemma SFeqb_true_inv x y :
  SFeqb x y = true ->
  (x = y /\ x <> S754_nan) \/ (exists s s', x = S754_zero s /\ y = S754_zero s').
Proof.
  destruct x as [s | s | | s m e], y as [s' | s' | | s' m' e'];
    cbn; try discriminate; try (destruct s; discriminate);
    try (destruct s'; discriminate).
  - intros _. right. eauto.
  - destruct s, s'; try discriminate; intros _; left; split; congruence.
  - unfold SFeqb, SFcompare.
    change (Pos.compare_cont Eq m m') with (Pos.compare m m').
    destruct s, s'; try discriminate;
      destruct (Z.compare_spec e e'); try discriminate;
      destruct (Pos.compare_spec m m'); try discriminate;
      intros _; left; split; congruence.
Qed.

Lemma SFeqb_sym x y : SFeqb x y = SFeqb y x.
Proof.
  assert (H : forall a b, SFeqb a b = true -> SFeqb b a = true).
  { intros a b Hab. destruct (SFeqb_true_inv _ _ Hab) as [[-> Hn] | [s [s' [-> ->]]]].
    - apply SFeqb_refl, Hn.
    - reflexivity. }
  destruct (SFeqb x y) eqn:E1, (SFeqb y x) eqn:E2; trivial.
  - apply H in E1. congruence.
  - apply H in E2. congruence.
Qed.

Lemma SFeqb_abs_zero x s : SFeqb (SFabs x) (S754_zero s) = SFeqb x (S754_zero false).
Proof. destruct x as [s0 | s0 | | s0 m e]; try reflexivity; destruct s0; reflexivity. Qed.

Lemma SFabs_sub_eqb_congr x x' y y' :
  SFeqb x x' = true -> SFeqb y y' = true ->
  SFnonfinite x = false -> SFnonfinite y = false ->
  SFabs (SF64sub x y) = SFabs (SF64sub x' y') /\ SF64sub x y <> S754_nan.
Proof.
  intros Hx Hy Fx Fy. split; [ | apply SFsub_finite_not_nan; assumption].
  destruct (SFeqb_true_inv _ _ Hx) as [[<- _] | [s1 [s1' [-> ->]]]];
  destruct (SFeqb_true_inv _ _ Hy) as [[<- _] | [s2 [s2' [-> ->]]]].
  - reflexivity.
  - destruct x as [s | s | | s m e]; try discriminate; try reflexivity.
    destruct s, s2, s2'; reflexivity.
  - destruct y as [s | s | | s m e]; try discriminate; try reflexivity.
    destruct s, s1, s1'; reflexivity.
  - destruct s1, s1', s2, s2'; reflexivity.
Qed.
End Binary64Rounding.

(** ** The same facts on the numbers of the class *)

Section Binary64Numbers.
Open Scope float_scope.

Lemma is_finite_false_SF (x : float) :
  is_finite x = false <-> SFnonfinite (Prim2SF x) = true.
Proof. rewrite is_finite_SF. destruct (SFnonfinite (Prim2SF x)); cbn; intuition congruence. Qed.

Lemma is_finite_true_SF (x : float) :
  is_finite x = true <-> SFnonfinite (Prim2SF x) = false.
Proof. rewrite is_finite_SF. destruct (SFnonfinite (Prim2SF x)); cbn; intuition congruence. Qed.

Lemma sub_not_finite_l (x y : float) :
  is_finite x = false -> is_finite (x - y) = false.
Proof.
  rewrite !is_finite_false_SF, sub_spec. apply SFsub_nonfinite_l.
Qed.

Lemma sub_not_finite_r (x y : float) :
  is_finite y = false -> is_finite (x - y) = false.
Proof.
  rewrite !is_finite_false_SF, sub_spec. apply SFsub_nonfinite_r.
Qed.

Lemma mul_not_finite_l (x y : float) :
  is_finite x = false -> is_finite (x * y) = false.
Proof.
  rewrite !is_finite_false_SF, mul_spec. apply SFmul_nonfinite_l.
Qed.

Lemma mul_not_finite_r (x y : float) :
  is_finite y = false -> is_finite (x * y) = false.
Proof.
  rewrite !is_finite_false_SF, mul_spec. apply SFmul_nonfinite_r.
Qed.

Lemma not_finite_ne_zero (x : float) : is_finite x = false -> ne x 0 = true.
Proof.
  rewrite is_finite_false_SF. intros H. unfold ne.
  rewrite eqb_spec, Prim2SF_zero, (SFeqb_nonfinite_zero _ _ H). reflexivity.
Qed.

Lemma mul_comm (x y : float) : x * y = y * x.
Proof. apply Prim2SF_inj. rewrite !mul_spec. apply SFmul_comm. Qed.

Lemma abs_sub_sym (x y : float) : abs (x - y) = abs (y - x).
Proof. apply Prim2SF_inj. rewrite !abs_spec, !sub_spec. apply SFabs_sub_sym. Qed.

Lemma eqb_sym (x y : float) : (x =? y) = (y =? x).
Proof. rewrite !eqb_spec. apply SFeqb_sym. Qed.

Lemma eqb_zero_abs (x : float) : (x =? 0) = (abs x =? 0).
Proof.
  rewrite !eqb_spec, abs_spec, Prim2SF_zero. symmetry. apply SFeqb_abs_zero.
Qed.

(** The magnitude of a difference of finite numbers is the same when each
    operand is replaced by a number that compares equal to it. *)
Lemma abs_sub_eqb_congr (x x' y y' : float) :
  (x =? x') = true -> (y =? y') = true ->
  is_finite x = true -> is_finite y = true ->
  (abs (x - y) =? abs (x' - y')) = true.
Proof.
  rewrite !eqb_spec, !is_finite_true_SF. intros Hx Hy Fx Fy.
  destruct (SFabs_sub_eqb_congr _ _ _ _ Hx Hy Fx Fy) as [Habs Hnan].
  rewrite !abs_spec, !sub_spec, <- Habs.
  apply SFeqb_refl. destruct (SF64sub (Prim2SF x) (Prim2SF y));
    cbn; congruence.
Qed.

End Binary64Numbers.

(** ** Construction *)

(** A cross product with an infinite or NaN component in an operand is
    itself an infinity or a NaN. *)
Lemma np_cross_not_finite (u v : point) :
  finite_point u && finite_point v = false ->
  is_finite (np_cross u v) = false.
Proof.
  unfold finite_point, np_cross. intros H.
  destruct (is_finite (px u)) eqn:Hux;
    [ | apply sub_not_finite_l, mul_not_finite_l, Hux].
  destruct (is_finite (py u)) eqn:Huy;
    [ | apply sub_not_finite_r, mul_not_finite_l, Huy].
  destruct (is_finite (px v)) eqn:Hvx;
    [ | apply sub_not_finite_r, mul_not_finite_r, Hvx].
  destruct (is_finite (py v)) eqn:Hvy;
    [ | apply sub_not_finite_l, mul_not_finite_r, Hvy].
  discriminate H.
Qed.

Lemma np_sub_not_finite (a b : point) :
  finite_point a && finite_point b = false ->
  finite_point (np_sub a b) = false.
Proof.
  unfold finite_point, np_sub. cbn [px py]. intros H.
  destruct (is_finite (px a)) eqn:Hax;
    [ | rewrite (sub_not_finite_l _ _ Hax); reflexivity].
  destruct (is_finite (px b)) eqn:Hbx;
    [ | rewrite (sub_not_finite_r _ _ Hbx); reflexivity].
  destruct (is_finite (py a)) eqn:Hay;
    [ | rewrite (sub_not_finite_l _ _ Hay); apply andb_false_r].
  destruct (is_finite (py b)) eqn:Hby;
    [ | rewrite (sub_not_finite_r _ _ Hby); apply andb_false_r].
  discriminate H.
Qed.

Lemma parallel_finite (p1 p2 p3 p4 : point) :
  parallel p1 p2 p3 p4 = true ->
  finite_panel (mkPanel p1 p2 p3 p4) = true.
Proof.
  unfold parallel, finite_panel. cbn [P1 P2 P3 P4]. intros H.
  destruct (finite_point p2 && finite_point p1) eqn:H12.
  - destruct (finite_point p4 && finite_point p3) eqn:H34.
    + apply andb_prop in H12, H34. destruct H12 as [-> ->], H34 as [-> ->].
      reflexivity.
    + exfalso. apply np_sub_not_finite in H34.
      pose proof (np_cross_not_finite (np_sub p2 p1) (np_sub p4 p3)) as Hc.
      rewrite H34, andb_false_r in Hc. specialize (Hc eq_refl).
      apply not_finite_ne_zero in Hc. unfold ne in Hc. rewrite H in Hc.
      discriminate Hc.
  - exfalso. apply np_sub_not_finite in H12.
    pose proof (np_cross_not_finite (np_sub p2 p1) (np_sub p4 p3)) as Hc.
    rewrite H12 in Hc. specialize (Hc eq_refl).
    apply not_finite_ne_zero in Hc. unfold ne in Hc. rewrite H in Hc.
    discriminate Hc.
Qed.

Lemma init_returns_inv (p1 p2 p3 p4 : point) (self : Panel) :
  __init__ p1 p2 p3 p4 = Returns self ->
  self = mkPanel p1 p2 p3 p4 /\ parallel p1 p2 p3 p4 = true.
Proof.
  rewrite init_eq. destruct (parallel p1 p2 p3 p4); [ | discriminate].
  intros H. apply Returns_inj in H. split; congruence.
Qed.

(** X1: a Panel the constructor returns holds the four arguments, in their
    order, and every one of its eight coordinates is a finite number: an
    infinity or a NaN in a corner makes the constructor raise. *)
Theorem constructed_panel_is_finite (p1 p2 p3 p4 : point) (self : Panel) :
  __init__ p1 p2 p3 p4 = Returns self ->
  self = mkPanel p1 p2 p3 p4 /\ finite_panel self = true.
Proof.
  intros H. apply init_returns_inv in H. destruct H as [-> Hpar].
  split; [reflexivity | apply parallel_finite, Hpar].
Qed.

Lemma constructed_panel_is_finite_witness :
  __init__ (Point 1 0) (Point 0 0) (Point 0 1) (Point 1 1) =
    Returns docstring_square /\
  finite_panel docstring_square = true.
Proof.
  assert (H : __init__ (Point 1 0) (Point 0 0) (Point 0 1) (Point 1 1) =
              Returns docstring_square) by (vm_compute; reflexivity).
  split; [exact H | ].
  exact (proj2 (constructed_panel_is_finite _ _ _ _ _ H)).
Defined.

(** X2: constructing the Panel and calling [span] on it returns a value
    exactly when the corner points satisfy both invariants, and the value
    is then |P3.y - P2.y|. *)
Theorem span_query_returns_iff_valid (p1 p2 p3 p4 : point) (v : float) :
  query p1 p2 p3 p4 span = Returns v <->
  valid (mkPanel p1 p2 p3 p4) /\ v = abs (py p3 - py p2).
Proof.
  unfold query, valid. cbn [P1 P2 P3 P4]. rewrite init_eq.
  destruct (parallel p1 p2 p3 p4).
  - rewrite span_eq. cbn [P1 P2 P3 P4].
    destruct (equal_span p1 p2 p3 p4).
    + split.
      * intros H. apply Returns_inj in H. auto.
      * intros [_ ->]. reflexivity.
    + split; [discriminate | intros [[_ H] _]; discriminate H].
  - split; [discriminate | intros [[H _] _]; discriminate H].
Qed.

(** X3: on a Panel the constructor returns whose edges P1P2 and P3P4 lie
    along x, as the class docstring draws them (P1.y equal to P2.y and P3.y
    equal to P4.y), [span] does not raise: it returns |P3.y - P2.y|. *)
Theorem span_of_horizontal_edges (p1 p2 p3 p4 : point) (self : Panel) :
  __init__ p1 p2 p3 p4 = Returns self ->
  (py p1 =? py p2)%float = true ->
  (py p3 =? py p4)%float = true ->
  result span self = Returns (abs (py p3 - py p2)).
Proof.
  intros H H12 H34. apply init_returns_inv in H. destruct H as [-> Hpar].
  apply parallel_finite in Hpar. unfold finite_panel, finite_point in Hpar.
  cbn [P1 P2 P3 P4] in Hpar.
  destruct (is_finite (py p2)) eqn:F2;
    [ | rewrite !andb_false_r in Hpar; discriminate Hpar].
  destruct (is_finite (py p3)) eqn:F3;
    [ | rewrite !andb_false_r in Hpar; discriminate Hpar].
  rewrite span_eq. unfold equal_span. cbn [P1 P2 P3 P4].
  rewrite eqb_sym in H12.
  rewrite (abs_sub_eqb_congr _ _ _ _ H34 H12) by assumption.
  reflexivity.
Qed.

Lemma span_of_horizontal_edges_witness :
  __init__ (Point 1 0) (Point 0 0) (Point 0 1) (Point 1 1) =
    Returns docstring_square /\
  result span docstring_square = Returns 1%float.
Proof.
  assert (H : __init__ (Point 1 0) (Point 0 0) (Point 0 1) (Point 1 1) =
              Returns docstring_square) by (vm_compute; reflexivity).
  split; [exact H | ].
  refine (span_of_horizontal_edges _ _ _ _ _ H _ _); vm_compute; reflexivity.
Defined.

(** A corner with an infinite or NaN coordinate is refused. *)
Example init_raises_on_nan_corner :
  __init__ (Point 1 0) (Point 0 0) (Point 0 nan) (Point 1 1) =
  Raises (ValueError msg_not_parallel).
Proof. vm_compute. reflexivity. Qed.

(** ** Relabelling the corners *)

Lemma parallel_exchange (p1 p2 p3 p4 : point) :
  parallel p3 p4 p1 p2 = parallel p1 p2 p3 p4.
Proof.
  unfold parallel, np_cross.
  rewrite (mul_comm (px (np_sub p4 p3)) (py (np_sub p2 p1))).
  rewrite (mul_comm (py (np_sub p4 p3)) (px (np_sub p2 p1))).
  rewrite eqb_zero_abs, abs_sub_sym, <- eqb_zero_abs. reflexivity.
Qed.

(** X4: the constructor gives the same outcome when the two edges are
    given in the other order, P3, P4 first and P1, P2 second: it returns
    the Panel of the exchanged corners when it returns the Panel of the
    corners as given, and raises the same error otherwise. *)
Theorem init_of_exchanged_edges (p1 p2 p3 p4 : point) :
  __init__ p3 p4 p1 p2 =
  match __init__ p1 p2 p3 p4 with
  | Returns self => Returns (exchange self)
  | Raises e => Raises e
  end.
Proof.
  rewrite !init_eq, parallel_exchange.
  destruct (parallel p1 p2 p3 p4); reflexivity.
Qed.

Lemma equal_span_sym (p1 p2 p3 p4 : point) :
  equal_span p2 p1 p4 p3 = equal_span p1 p2 p3 p4.
Proof. unfold equal_span. apply eqb_sym. Qed.

Lemma span_mirror (self : Panel) : result span (mirror self) = result span self.
Proof.
  rewrite !span_eq. unfold mirror. cbn [P1 P2 P3 P4].
  rewrite equal_span_sym.
  destruct (equal_span (P1 self) (P2 self) (P3 self) (P4 self)) eqn:E;
    [ | reflexivity].
  unfold equal_span in E. apply abs_eqb_eq in E. rewrite E. reflexivity.
Qed.

Lemma span_flip (self : Panel) : result span (flip self) = result span self.
Proof.
  rewrite !span_eq. unfold flip, equal_span. cbn [P1 P2 P3 P4].
  rewrite (abs_sub_sym (py (P2 self)) (py (P3 self))).
  rewrite (abs_sub_sym (py (P1 self)) (py (P4 self))).
  reflexivity.
Qed.

(** X5: [span] gives the same outcome, value or error, however the
    corners of the panel are relabelled: mirrored (P1 with P2, P3 with P4),
    upside down (P1 with P4, P2 with P3), or with the two edges exchanged
    (P1 with P3, P2 with P4). *)
Theorem span_of_relabelled_panel (self : Panel) :
  result span (mirror self) = result span self /\
  result span (flip self) = result span self /\
  result span (exchange self) = result span self.
Proof.
  split; [apply span_mirror | ]. split; [apply span_flip | ].
  change (exchange self) with (mirror (flip self)).
  rewrite span_mirror. apply span_flip.
Qed.

(** ** Telling the two errors apart *)

(** X6: the constructor raises nothing but the not-parallel error, which
    is not the error [span] raises: the message tells a caller which of the
    two invariants failed. *)
Theorem init_raises_only_not_parallel (p1 p2 p3 p4 : point) (e : exn) :
  __init__ p1 p2 p3 p4 = Raises e ->
  e = ValueError msg_not_parallel /\
  e <> ValueError msg_unequal_span /\
  (forall self, result span self <> Raises e).
Proof.
  rewrite init_eq. destruct (parallel p1 p2 p3 p4); [discriminate | ].
  intros H. injection H as <-. split; [reflexivity | ].
  split; [discriminate | ].
  intros self. rewrite span_eq.
  destruct (equal_span _ _ _ _); discriminate.
Qed.

Lemma init_raises_only_not_parallel_witness :
  __init__ (Point 1 0) (Point 0 0) (Point 0 1) (Point 1 2) =
    Raises (ValueError msg_not_parallel) /\
  ValueError msg_not_parallel <> ValueError msg_unequal_span.
Proof.
  assert (H : __init__ (Point 1 0) (Point 0 0) (Point 0 1) (Point 1 2) =
              Raises (ValueError msg_not_parallel)) by (vm_compute; reflexivity).
  split; [exact H | ].
  exact (proj1 (proj2 (init_raises_only_not_parallel _ _ _ _ _ H))).
Defined.

(** ** Exceptions and short lists of the placement *)

Section PanelVortexErrors.
Context {V : Vortices}.

(** X7: an exception of [vortex_position_in_panel] is the exception of
    [control_point] and of [induced_velocity]; the evaluator has no part in
    the outcome. *)
Theorem placement_exception_propagates (self : Panel) (fp : point) (e : exn) :
  vortex_position_in_panel (P1 self) (P2 self) (P3 self) (P4 self) = Raises e ->
  result _vortex_position self = Raises e /\
  result control_point self = Raises e /\
  result (induced_velocity fp) self = Raises e.
Proof.
  intros H.
  rewrite vortex_position_eq, control_point_eq, induced_velocity_eq, H.
  repeat split.
Qed.

(** X8: when the placement returns fewer than five points,
    [induced_velocity] raises [IndexError] whatever the evaluator would
    give, and [control_point] returns the first point if there is one and
    raises [IndexError] on the empty list. *)
Theorem short_placement_raises_IndexError
    (self : Panel) (fp : point) (l : list point) :
  vortex_position_in_panel (P1 self) (P2 self) (P3 self) (P4 self) = Returns l ->
  (List.length l < 5)%nat ->
  result (induced_velocity fp) self = Raises IndexError /\
  result control_point self =
    match hd_error l with
    | Some p => Returns p
    | None => Raises IndexError
    end.
Proof.
  intros H Hlen. rewrite control_point_eq, induced_velocity_eq, H.
  destruct l as [ | p [ | a [ | b [ | c [ | d l]]]]]; cbn in *;
    try (split; reflexivity).
  lia.
Qed.

(** X9: when [induced_velocity fp] returns a value, the placement returned
    at least five points, the value is the evaluator's on the field point
    and the points 1 to 4, and [control_point] returns the point 0. *)
Theorem induced_velocity_returns_inv
    (self : Panel) (fp : point) (v : velocity) :
  result (induced_velocity fp) self = Returns v ->
  exists p a b c d rest,
    vortex_position_in_panel (P1 self) (P2 self) (P3 self) (P4 self) =
      Returns (p :: a :: b :: c :: d :: rest) /\
    v_induced_by_horseshoe_vortex fp a b c d = Returns v /\
    result control_point self = Returns p.
Proof.
  rewrite control_point_eq, induced_velocity_eq.
  destruct (vortex_position_in_panel _ _ _ _)
    as [[ | p [ | a [ | b [ | c [ | d l]]]]] | e]; cbn; try discriminate.
  intros H. exists p, a, b, c, d, l. repeat split. exact H.
Qed.

End PanelVortexErrors.

Lemma placement_exception_propagates_witness :
  @vortex_position_in_panel raising_vortices
    (P1 skewed) (P2 skewed) (P3 skewed) (P4 skewed) =
    Raises (OtherError "ZeroDivisionError") /\
  result (@control_point raising_vortices) skewed =
    Raises (OtherError "ZeroDivisionError") /\
  result (@induced_velocity raising_vortices (Point 7 8)) skewed =
    Raises (OtherError "ZeroDivisionError").
Proof.
  assert (H : @vortex_position_in_panel raising_vortices
                (P1 skewed) (P2 skewed) (P3 skewed) (P4 skewed) =
              Raises (OtherError "ZeroDivisionError")) by reflexivity.
  split; [exact H | ].
  exact (proj2 (@placement_exception_propagates raising_vortices skewed
                  (Point 7 8) _ H)).
Defined.

Lemma short_placement_raises_IndexError_witness :
  (List.length [P1 skewed; P2 skewed; P3 skewed] < 5)%nat /\
  result (@induced_velocity short_vortices (Point 7 8)) skewed =
    Raises IndexError /\
  result (@control_point short_vortices) skewed = Returns (Point 2 2).
Proof.
  assert (Hlen : (List.length [P1 skewed; P2 skewed; P3 skewed] < 5)%nat)
    by (cbn; lia).
  split; [exact Hlen | ].
  exact (@short_placement_raises_IndexError short_vortices skewed (Point 7 8)
           [P1 skewed; P2 skewed; P3 skewed] eq_refl Hlen).
Defined.

Lemma induced_velocity_returns_inv_witness :
  result (@induced_velocity sample_vortices (Point 7 8)) skewed =
    Returns [Point 7 8; Point 2 2; Point 0 0; Point 0 1; Point 3 4] /\
  exists p, result (@control_point sample_vortices) skewed = Returns p.
Proof.
  assert (H : result (@induced_velocity sample_vortices (Point 7 8)) skewed =
              Returns [Point 7 8; Point 2 2; Point 0 0; Point 0 1; Point 3 4])
    by (vm_compute; reflexivity).
  split; [exact H | ].
  destruct (@induced_velocity_returns_inv sample_vortices skewed (Point 7 8)
              _ H) as [p [_ [_ [_ [_ [_ [_ [_ Hp]]]]]]]].
  exists p. exact Hp.
Defined.
